(** * cli-standard-kit: the project initializer [init_project.run_init]

    A shallow embedding of [src/cli_standard_kit/init_project.py] and the
    properties its specification states about it.

    The script is straight-line Python over three effects: writing a line to
    standard output, handing a command string to the shell
    ([subprocess.run(cmd, shell=True, check=True)]) and changing the working
    directory of the process ([os.chdir]).  It is embedded in a state and
    exception monad over a process state that records the working directory,
    the outside world and the trace of effects performed so far.

    Strings are the UTF-8 bytes of the Python strings.

    Scope.  The embedding covers the runs in which standard output accepts
    every line and [/bin/sh] is started on every command handed to it and
    reports a status.  Left out, all of them ending the real run at once
    with an exception of their own: [print] raising [UnicodeEncodeError]
    (a name that the output encoding cannot encode), [subprocess.run]
    raising before any child exists ([OSError] for a command over the
    argument size limit or a shell that cannot be started), [os.getcwd]
    failing, and a child that never ends.  The statements on the template
    invocation, the exceptions, the echo of the commands and the
    directories of the commands, which speak of every project name, are
    written so that they hold of such runs too: they bound what a run
    does, or speak of the runs that got as far as the effect in
    question. *)

From Stdlib Require Import String Ascii List ZArith Lia Bool.
Import ListNotations.
Open Scope string_scope.
Open Scope Z_scope.

(** * The Python runtime, as far as the script uses it *)

(** The exceptions the script can meet.  [SystemExit] is raised by
    [sys.exit], [IndexError] by [sys.argv[1]] out of range,
    [CalledProcessError] by [subprocess.run(..., check=True)] when the child
    exits with a status other than zero, and [OSError] by [os.chdir] (in
    Python: FileNotFoundError, NotADirectoryError, PermissionError). *)
Inductive exn : Type :=
| SystemExit (code : Z)
| IndexError
| CalledProcessError (returncode : Z) (cmd : string)
| OSError (filename : string).

Inductive result (A : Type) : Type :=
| Ok (a : A)
| Raise (e : exn).
Arguments Ok {A} a.
Arguments Raise {A} e.

(** The operating system the process runs on.  [sh w dir cmd] runs
    [/bin/sh -c cmd] as a child process started in directory [dir]: it
    gives the child's exit status and the world the child leaves behind
    (files, repositories, network traffic).  A child cannot change the
    working directory of its parent, so [sh] returns no directory.
    [chdir w dir path] resolves [path] from [dir]: the directory
    [os.getcwd()] reports afterwards, or [None] when [os.chdir] fails. *)
Class OS : Type := {
  world : Type;
  sh : world -> string -> string -> Z * world;
  chdir : world -> string -> string -> option string
}.

(** What an observer of the process sees, in order. *)
Inductive event : Type :=
| Stdout (line : string)
| Spawn (dir : string) (cmd : string) (status : Z)
| Chdir (path : string) (res : option string).

Section Runtime.
Context {os : OS}.

(** The process: its current working directory, the world around it and
    the effects it has performed, oldest first. *)
Record proc : Type := mkProc {
  cwd : string;
  env : world;
  trace : list event
}.

(** A freshly started process. *)
Definition start (w : world) (dir : string) : proc :=
  {| cwd := dir; env := w; trace := [] |}.

Definition emit (e : event) (p : proc) : proc :=
  {| cwd := cwd p; env := env p; trace := trace p ++ [e] |}.

(** Computations: state passing, with the state kept when an exception
    is raised (no handler of the script ever restores anything). *)
Definition M (A : Type) : Type := proc -> result A * proc.

Definition ret {A : Type} (a : A) : M A := fun p => (Ok a, p).

Definition raise {A : Type} (e : exn) : M A := fun p => (Raise e, p).

Definition bind {A B : Type} (c : M A) (k : A -> M B) : M B :=
  fun p =>
    match c p with
    | (Ok a, p') => k a p'
    | (Raise e, p') => (Raise e, p')
    end.

(** [print(s)]: one call, one line of standard output.  The output is
    taken to accept the line (see the scope above). *)
Definition print (s : string) : M unit :=
  fun p => (Ok tt, emit (Stdout s) p).

(** [print(a, b)]: the arguments separated by one space. *)
Definition print2 (a b : string) : M unit :=
  print (a ++ " " ++ b).

(** [sys.exit(code)] *)
Definition sys_exit {A : Type} (code : Z) : M A := raise (SystemExit code).

(** [sys.argv[i]] *)
Definition index (argv : list string) (i : nat) : M string :=
  match nth_error argv i with
  | Some a => ret a
  | None => raise IndexError
  end.

(** [subprocess.run(cmd, shell=True, check=True)]: the child runs to its
    end in the working directory of the process; a status other than zero
    raises [CalledProcessError] carrying that status.  The shell is taken
    to start (see the scope above): the [Spawn] event stands for a child
    that ran. *)
Definition subprocess_run (cmd : string) : M unit :=
  fun p =>
    let (status, w') := sh (env p) (cwd p) cmd in
    let p' := {| cwd := cwd p; env := w';
                 trace := trace p ++ [Spawn (cwd p) cmd status] |} in
    if status =? 0 then (Ok tt, p')
    else (Raise (CalledProcessError status cmd), p').

(** [os.chdir(path)] *)
Definition os_chdir (path : string) : M unit :=
  fun p =>
    match chdir (env p) (cwd p) path with
    | Some dir' =>
        (Ok tt, {| cwd := dir'; env := env p;
                   trace := trace p ++ [Chdir path (Some dir')] |})
    | None => (Raise (OSError path), emit (Chdir path None) p)
    end.

(** [os.getcwd()] *)
Definition os_getcwd : M string := fun p => (Ok (cwd p), p).

End Runtime.

Declare Scope py_scope.
Delimit Scope py_scope with py.
Notation "x <- c1 ;; c2" := (bind c1 (fun x => c2))
  (at level 61, c1 at next level, right associativity) : py_scope.
Notation "c1 ;; c2" := (bind c1 (fun _ => c2))
  (at level 61, right associativity) : py_scope.
Open Scope py_scope.

(** What the interpreter does with the outcome of the entry point: a normal
    return ends the process with status 0, [SystemExit] with its code (the
    low eight bits), and any other exception that reaches the top level is
    reported with a traceback and ends the process with status 1. *)
Definition exit_status (r : result unit) : Z :=
  match r with
  | Ok _ => 0
  | Raise (SystemExit code) => Z.land code 255
  | Raise _ => 1
  end.

Definition traceback (r : result unit) : bool :=
  match r with
  | Ok _ => false
  | Raise (SystemExit _) => false
  | Raise _ => true
  end.

(** * The script *)

Definition nl : string := String (ascii_of_nat 10) EmptyString.

Definition usage_msg : string :=
  "❌ Usage: cli-standard-kit init <project_name>".

Definition cookiecutter_cmd (project_name : string) : string :=
  "cookiecutter gh:c3nk/cookiecutter-cli-standard-kit --no-input "
  ++ "project_name='" ++ project_name
  ++ "' project_slug='" ++ project_name ++ "'".

Definition git_init_cmd : string :=
  "git init -q && git add . && git commit -m 'init project'".

Definition git_branch_cmd : string := "git branch -M main".

Definition venv_cmd : string := "python3 -m venv .venv".

Definition hint_msg (project_name : string) : string :=
  "➡ cd " ++ project_name
  ++ " && source .venv/bin/activate && python src/" ++ project_name
  ++ "/cli.py --help".

Section Script.
Context {os : OS}.

(** [def run(cmd, **kwargs)]; every call of the script passes no keyword
    argument. *)
Definition run (cmd : string) : M unit :=
  print ("▶ " ++ cmd) ;;
  subprocess_run cmd.

(** [def run_init()], with [sys.argv] as its parameter. *)
Definition run_init (argv : list string) : M unit :=
  (if (length argv <? 2)%nat
   then print usage_msg ;; sys_exit 1
   else ret tt) ;;
  project_name <- index argv 1 ;;
  print ("🚀 Creating new CLI project: " ++ project_name) ;;
  run (cookiecutter_cmd project_name) ;;
  os_chdir project_name ;;
  here <- os_getcwd ;;
  print2 "📁 Entered:" here ;;
  run git_init_cmd ;;
  run git_branch_cmd ;;
  print "🐍 Creating virtual environment (.venv)..." ;;
  run venv_cmd ;;
  print "✅ Virtual environment created." ;;
  print (nl ++ "📦 Project ready!") ;;
  print (hint_msg project_name).

End Script.

(** * Two operating systems to run the script on *)

(** A scripted system: the world is the list of exit statuses the next
    shell commands will give (0 once the list is used up), and every
    directory asked for exists below the current one. *)
Definition scripted : OS := {|
  world := list Z;
  sh := fun w _ _ =>
    match w with
    | [] => (0, [])
    | status :: w' => (status, w')
    end;
  chdir := fun _ dir path => Some (dir ++ "/" ++ path)
|}.

(** A system where every command succeeds and leaves nothing behind, so
    that no directory can be entered. *)
Definition barren : OS := {|
  world := unit;
  sh := fun _ _ _ => (0, tt);
  chdir := fun _ _ _ => None
|}.

(** * The shell's reading of a command string

    [shell=True] hands the command string to [/bin/sh -c].  The part of the
    shell's token recognition that the script's commands exercise: blanks
    separate words, a single quote opens a stretch in which every character
    up to the next single quote is taken as it stands, [;] and [&&] sit
    between simple commands.  Outside quotes only the characters that mean
    themselves everywhere are accepted; for anything else (a double quote,
    a backslash, a dollar sign, redirections, a newline ...) [lex] gives
    [None]: the command is outside the modelled fragment. *)
Module Sh.

Inductive token : Type :=
| Word (w : string)
| AndIf
| Semi.

Definition quote : ascii := "'"%char.

Definition is_blank (c : ascii) : bool :=
  ((c =? " ") || (nat_of_ascii c =? 9)%nat)%char.

Definition between (lo hi c : ascii) : bool :=
  ((nat_of_ascii lo <=? nat_of_ascii c)
   && (nat_of_ascii c <=? nat_of_ascii hi))%nat.

(** Characters that stand for themselves outside quotes. *)
Definition is_plain (c : ascii) : bool :=
  between "a" "z" c || between "A" "Z" c || between "0" "9" c
  || existsb (Ascii.eqb c) (list_ascii_of_string "%+,-./:=@_").

Fixpoint has_quote (s : string) : bool :=
  match s with
  | EmptyString => false
  | String c s' => (c =? quote)%char || has_quote s'
  end.

(** The word being read: [None] between words. *)
Definition word_of (cur : option string) : string :=
  match cur with
  | Some w => w
  | None => EmptyString
  end.

Definition push (cur : option string) (c : ascii) : option string :=
  Some (word_of cur ++ String c EmptyString).

Definition flush (cur : option string) (ts : list token) : list token :=
  match cur with
  | Some w => Word w :: ts
  | None => ts
  end.

(** [lex q cur s]: the tokens of [s], read with [cur] as the word under
    way and, when [q] holds, inside single quotes. *)
Fixpoint lex (q : bool) (cur : option string) (s : string)
  : option (list token) :=
  match s with
  | EmptyString => if q then None else Some (flush cur [])
  | String c s' =>
      if q then
        if (c =? quote)%char then lex false cur s'
        else lex true (push cur c) s'
      else if (c =? quote)%char then lex true (Some (word_of cur)) s'
      else if is_blank c then option_map (flush cur) (lex false None s')
      else if (c =? ";")%char then
        option_map (fun ts => flush cur (Semi :: ts)) (lex false None s')
      else if (c =? "&")%char then
        match s' with
        | String c' s'' =>
            if (c' =? "&")%char then
              option_map (fun ts => flush cur (AndIf :: ts))
                         (lex false None s'')
            else None
        | EmptyString => None
        end
      else if is_plain c then lex false (push cur c) s'
      else None
  end.

Definition tokens (s : string) : option (list token) := lex false None s.

(** The simple commands of a token list: the words between operators. *)
Fixpoint commands (ts : list token) : list (list string) :=
  match ts with
  | [] => [[]]
  | Word w :: ts' =>
      match commands ts' with
      | c :: cs => (w :: c) :: cs
      | [] => [[w]]
      end
  | _ :: ts' => [] :: commands ts'
  end.

Definition argvs (s : string) : option (list (list string)) :=
  option_map commands (tokens s).

(** Token lists none of whose words holds a single quote. *)
Definition quoteless (ts : list token) : Prop :=
  forall w, In (Word w) ts -> has_quote w = false.

End Sh.

(** The argument vector the template engine is meant to receive. *)
Definition cookiecutter_argv (project_name : string) : list string :=
  ["cookiecutter"; "gh:c3nk/cookiecutter-cli-standard-kit"; "--no-input";
   "project_name=" ++ project_name; "project_slug=" ++ project_name].

(** * Reading a trace *)

Definition commands_of (t : list event) : list string :=
  flat_map (fun e => match e with Spawn _ cmd _ => [cmd] | _ => [] end) t.

Definition chdirs_of (t : list event) : list (string * option string) :=
  flat_map (fun e => match e with Chdir path res => [(path, res)] | _ => [] end) t.


(** An effect that makes Python raise. *)
Definition failed (e : event) : bool :=
  match e with
  | Stdout _ => false
  | Spawn _ _ status => negb (status =? 0)
  | Chdir _ res => match res with Some _ => false | None => true end
  end.

Definition occurrences (cmd : string) (cmds : list string) : nat :=
  length (filter (String.eqb cmd) cmds).

(** [git commit ...] as a simple command. *)
Definition is_commit (argv : list string) : bool :=
  match argv with
  | a :: b :: _ => (a =? "git")%string && (b =? "commit")%string
  | _ => false
  end.

(** The simple commands of several command strings, one after the other
    (nothing for a string outside the modelled fragment). *)
Definition simple_commands (cmds : list string) : list (list string) :=
  flat_map (fun cmd => match Sh.argvs cmd with Some cs => cs | None => [] end)
           cmds.

(** * The documented order of the steps

    Step 1 of the specification is the argument check; steps 2 to 8 are
    what a run with a project name may perform, in this order.  [here] is
    the directory the process finds itself in after step 4. *)
Inductive action : Type :=
| Say (line : string)
| Shell (cmd : string)
| Enter (path : string).

Definition action_of (e : event) : action :=
  match e with
  | Stdout line => Say line
  | Spawn _ cmd _ => Shell cmd
  | Chdir path _ => Enter path
  end.

Definition plan (project_name here : string) : list (list action) :=
  [ [Say ("🚀 Creating new CLI project: " ++ project_name)];
    [Say ("▶ " ++ cookiecutter_cmd project_name);
     Shell (cookiecutter_cmd project_name)];
    [Enter project_name; Say ("📁 Entered: " ++ here)];
    [Say ("▶ " ++ git_init_cmd); Shell git_init_cmd];
    [Say ("▶ " ++ git_branch_cmd); Shell git_branch_cmd];
    [Say "🐍 Creating virtual environment (.venv)...";
     Say ("▶ " ++ venv_cmd); Shell venv_cmd;
     Say "✅ Virtual environment created."];
    [Say (nl ++ "📦 Project ready!"); Say (hint_msg project_name)] ].

Definition script (project_name here : string) : list action :=
  concat (plan project_name here).

Definition is_prefix {A : Type} (l1 l2 : list A) : Prop :=
  exists rest, l2 = (l1 ++ rest)%list.

(** The trace of a run up to and including the announcement of the
    project directory (steps 2 to 4, all successful). *)
Definition entered (d project_name here : string) : list event :=
  [ Stdout ("🚀 Creating new CLI project: " ++ project_name);
    Stdout ("▶ " ++ cookiecutter_cmd project_name);
    Spawn d (cookiecutter_cmd project_name) 0;
    Chdir project_name (Some here);
    Stdout ("📁 Entered: " ++ here) ].

(** ... and up to the renaming of the branch (steps 2 to 6). *)
Definition initialized (d project_name here : string) : list event :=
  (entered d project_name here ++
   [ Stdout ("▶ " ++ git_init_cmd); Spawn here git_init_cmd 0;
     Stdout ("▶ " ++ git_branch_cmd); Spawn here git_branch_cmd 0 ])%list.

(** * Two readings of the specification that the script does not follow *)

(** Exactly one positional argument is enforced: any other number of
    them is answered with the usage error. *)
Definition exactly_one_argument_enforced : Prop :=
  forall (os : OS) (argv : list string) (w : world) (d : string),
    (length argv - 1 <> 1)%nat ->
    fst (run_init argv (start w d)) = Raise (SystemExit 1).


(** * Further readings of a trace and of the hint *)

(** Every command of the trace comes right after the line that echoes it;
    [prev] is the effect before the first one of [t]. *)
Fixpoint echoed (prev : option event) (t : list event) : Prop :=
  match t with
  | [] => True
  | e :: t' =>
      match e with
      | Spawn _ cmd _ => prev = Some (Stdout ("▶ " ++ cmd))
      | _ => True
      end
      /\ echoed (Some e) t'
  end.

(** Names made of characters that stand for themselves in the shell. *)
Fixpoint all_plain (s : string) : bool :=
  match s with
  | EmptyString => true
  | String c s' => Sh.is_plain c && all_plain s'
  end.

(** The command line the final hint shows after its arrow. *)
Definition hint_cmd (project_name : string) : string :=
  "cd " ++ project_name
  ++ " && source .venv/bin/activate && python src/" ++ project_name
  ++ "/cli.py --help".

(** The effects of steps 7 and 8 when the environment is created. *)
Definition finished (project_name here : string) : list event :=
  [ Stdout "🐍 Creating virtual environment (.venv)...";
    Stdout ("▶ " ++ venv_cmd);
    Spawn here venv_cmd 0;
    Stdout "✅ Virtual environment created.";
    Stdout (nl ++ "📦 Project ready!");
    Stdout (hint_msg project_name) ].



(** Every command of the trace is in its place: before the change of
    directory only the template command, in the directory [cur]; after it
    only the three fixed commands, in the directory it reported.  Nothing
    follows a failed change of directory, and there is no second one. *)
Fixpoint well_placed (name cur : string) (entered : bool) (t : list event)
  : Prop :=
  match t with
  | [] => True
  | e :: t' =>
      match e with
      | Stdout _ => well_placed name cur entered t'
      | Spawn dir cmd _ =>
          dir = cur
          /\ (if entered
              then In cmd [git_init_cmd; git_branch_cmd; venv_cmd]
              else cmd = cookiecutter_cmd name)
          /\ well_placed name cur entered t'
      | Chdir path res =>
          path = name /\ entered = false
          /\ match res with
             | Some dir' => well_placed name dir' true t'
             | None => t' = []
             end
      end
  end.

(** * The shell fragment: facts *)

Section ShellFacts.
Import Sh.

Lemma has_quote_app (a b : string) :
  has_quote (a ++ b) = has_quote a || has_quote b.
Proof.
  induction a as [|c a IH]; simpl; [reflexivity|].
  rewrite IH. apply orb_assoc.
Qed.

Lemma append_snoc (w : string) (c : ascii) (s : string) :
  (w ++ String c EmptyString) ++ s = w ++ String c s.
Proof. induction w as [|x w IH]; simpl; [reflexivity | now rewrite IH]. Qed.

Lemma append_nil_r (w : string) : w ++ EmptyString = w.
Proof. induction w as [|x w IH]; simpl; [reflexivity | now rewrite IH]. Qed.

(** Inside single quotes a stretch without a single quote is taken as it
    stands, whatever it holds, and the next single quote ends it. *)
Lemma lex_quoted (n : string) :
  has_quote n = false ->
  forall (w rest : string),
    lex true (Some w) (n ++ String quote rest)
    = lex false (Some (w ++ n)) rest.
Proof.
  induction n as [|c n IH]; intros Hq w rest; simpl in *.
  - now rewrite append_nil_r.
  - apply orb_false_iff in Hq as [Hc Hn].
    rewrite Hc. unfold push; simpl. rewrite (IH Hn).
    now rewrite append_snoc.
Qed.

(** For a name without a single quote the shell hands the template engine
    the five intended arguments, the name as the value of both variables. *)
Lemma cookiecutter_tokens (name : string) :
  has_quote name = false ->
  tokens (cookiecutter_cmd name) = Some (map Word (cookiecutter_argv name)).
Proof.
  intros Hq. unfold tokens, cookiecutter_cmd, cookiecutter_argv.
  simpl. rewrite (lex_quoted name Hq).
  simpl. rewrite (lex_quoted name Hq).
  reflexivity.
Qed.

(** No word the shell reads holds a single quote: the quotes of the
    command string are consumed as delimiters. *)
Lemma quoteless_flush (cur : option string) (ts : list token) :
  has_quote (word_of cur) = false -> quoteless ts -> quoteless (flush cur ts).
Proof.
  intros Hc Hts w Hin. destruct cur as [v|]; simpl in *; [|now apply Hts].
  destruct Hin as [E|Hin]; [now inversion E; subst | now apply Hts].
Qed.

Lemma quoteless_cons_op (t : token) (ts : list token) :
  (forall w, t <> Word w) -> quoteless ts -> quoteless (t :: ts).
Proof.
  intros Ht Hts w [E|Hin]; [now elim (Ht w) | now apply Hts].
Qed.

Lemma has_quote_push (cur : option string) (c : ascii) :
  has_quote (word_of cur) = false -> (c =? quote)%char = false ->
  has_quote (word_of (push cur c)) = false.
Proof.
  intros Hc Hq. unfold push; simpl.
  rewrite has_quote_app, Hc. simpl. now rewrite Hq.
Qed.

Lemma lex_quoteless_bounded (n : nat) :
  forall (s : string) (q : bool) (cur : option string) (ts : list token),
    (String.length s <= n)%nat ->
    has_quote (word_of cur) = false ->
    lex q cur s = Some ts -> quoteless ts.
Proof.
  induction n as [|n IH]; intros s q cur ts Hlen Hcur Hlex.
  - destruct s as [|c s]; simpl in Hlen; [|lia].
    simpl in Hlex. destruct q; [discriminate|].
    inversion Hlex; subst. apply quoteless_flush; [assumption|].
    intros w [].
  - destruct s as [|c s].
    { simpl in Hlex. destruct q; [discriminate|].
      inversion Hlex; subst. apply quoteless_flush; [assumption|].
      intros w []. }
    simpl in Hlen. simpl in Hlex.
    destruct q.
    { destruct (c =? quote)%char eqn:Ec.
      - apply (IH s false cur ts); [lia | assumption | assumption].
      - apply (IH s true (push cur c) ts);
          [lia | now apply has_quote_push | assumption]. }
    destruct (c =? quote)%char eqn:Ec.
    { apply (IH s true (Some (word_of cur)) ts); [lia | assumption | assumption]. }
    destruct (is_blank c).
    { destruct (lex false None s) as [ts'|] eqn:E; [|discriminate].
      inversion Hlex; subst. apply quoteless_flush; [assumption|].
      apply (IH s false None ts'); [lia | reflexivity | assumption]. }
    destruct (c =? ";")%char.
    { destruct (lex false None s) as [ts'|] eqn:E; [|discriminate].
      inversion Hlex; subst. apply quoteless_flush; [assumption|].
      apply quoteless_cons_op; [discriminate|].
      apply (IH s false None ts'); [lia | reflexivity | assumption]. }
    destruct (c =? "&")%char.
    { destruct s as [|c' s']; [discriminate|].
      destruct (c' =? "&")%char; [|discriminate].
      destruct (lex false None s') as [ts'|] eqn:E; [|discriminate].
      inversion Hlex; subst. apply quoteless_flush; [assumption|].
      apply quoteless_cons_op; [discriminate|].
      apply (IH s' false None ts'); [simpl in Hlen; lia | reflexivity | assumption]. }
    destruct (is_plain c); [|discriminate].
    apply (IH s false (push cur c) ts);
      [lia | now apply has_quote_push | assumption].
Qed.

Lemma tokens_quoteless (s : string) (ts : list token) :
  tokens s = Some ts -> quoteless ts.
Proof.
  intros H.
  now apply (lex_quoteless_bounded (String.length s) s false None ts).
Qed.

(** A name that holds a single quote never reaches the template engine as
    the value of a variable, whatever else the name holds. *)
Lemma quoted_name_not_passed (name var : string) (ts : list token) :
  has_quote name = true ->
  tokens (cookiecutter_cmd name) = Some ts ->
  ~ In (Word (var ++ name)) ts.
Proof.
  intros Hq Hts Hin.
  pose proof (tokens_quoteless _ _ Hts _ Hin) as H.
  rewrite has_quote_app, Hq, orb_true_r in H. discriminate.
Qed.

(** The intended arguments are received exactly for the names that hold
    no single quote. *)
Lemma cookiecutter_tokens_iff (name : string) :
  tokens (cookiecutter_cmd name) = Some (map Word (cookiecutter_argv name))
  <-> has_quote name = false.
Proof.
  split; [|apply cookiecutter_tokens].
  intros H. destruct (has_quote name) eqn:Hq; [|reflexivity].
  exfalso. apply (quoted_name_not_passed name "project_name=" _ Hq H).
  simpl. auto.
Qed.

End ShellFacts.

(** * Traces: facts *)

(** When nothing but the last effect of a trace failed, whatever failed is
    the last effect. *)
Lemma failed_is_last (t : list event) :
  forallb (fun e => negb (failed e)) (removelast t) = true ->
  forall pre e post, t = (pre ++ e :: post)%list -> failed e = true -> post = [].
Proof.
  intros Hall pre. revert t Hall.
  induction pre as [|x pre IH]; intros t Hall e post Ht Hf; subst t.
  - destruct post as [|y post]; [reflexivity|].
    simpl in Hall. rewrite Hf in Hall. discriminate.
  - refine (IH (pre ++ e :: post)%list _ e post eq_refl Hf).
    change ((x :: pre) ++ e :: post)%list
      with (x :: (pre ++ e :: post))%list in Hall.
    destruct (pre ++ e :: post)%list as [|y l] eqn:E.
    + destruct pre; discriminate.
    + simpl in Hall. apply andb_true_iff in Hall. apply Hall.
Qed.

Lemma none_failed (t : list event) :
  forallb (fun e => negb (failed e)) t = true ->
  forall e, In e t -> failed e = false.
Proof.
  intros Hall e Hin. rewrite forallb_forall in Hall.
  apply negb_true_iff. now apply Hall.
Qed.

(** * Running the script *)

Arguments cookiecutter_cmd : simpl never.
Arguments hint_msg : simpl never.

(** Symbolic execution: unfold the monad, then split on what the operating
    system answers at each call. *)
Ltac unfold_script :=
  unfold run_init, run, bind, print, print2, subprocess_run, os_chdir,
    os_getcwd, index, ret, raise, sys_exit, emit, start;
  simpl.

Ltac ask_os :=
  repeat match goal with
    | H : sh ?w ?d ?c = _ |- context [sh ?w ?d ?c] => rewrite H; simpl
    | H : chdir ?w ?d ?c = _ |- context [chdir ?w ?d ?c] => rewrite H; simpl
    | |- context [sh ?w ?d ?c] =>
        let st := fresh "st" in
        let w' := fresh "w" in
        let E := fresh "Esh" in
        let Z0 := fresh "Est" in
        destruct (sh w d c) as [st w'] eqn:E; simpl;
        destruct (Z.eqb_spec st 0) as [Z0|Z0]; simpl; [subst st|]
    | |- context [chdir ?w ?d ?p] =>
        let here := fresh "here" in
        let E := fresh "Ecd" in
        destruct (chdir w d p) as [here|] eqn:E; simpl
    end.

(** Membership in a trace that is written out. *)
Ltac in_trace H :=
  simpl in H;
  repeat (let H' := fresh H in destruct H as [H'|H];
          [try discriminate H'; try (inversion H'; subst; clear H')|]);
  try contradiction.

Section Claims.
Context {os : OS}.


(** C2: without a positional argument the script prints the usage line
    and raises [SystemExit(1)], so the process ends with status 1; it
    spawns no command, changes no directory and leaves the world and the
    working directory as they were. *)
Theorem run_init_usage (argv : list string) (w : world) (d : string) :
  (length argv < 2)%nat ->
  let (r, p) := run_init argv (start w d) in
  r = Raise (SystemExit 1)
  /\ p = {| cwd := d; env := w; trace := [Stdout usage_msg] |}
  /\ commands_of (trace p) = []
  /\ chdirs_of (trace p) = []
  /\ exit_status r = 1.
Proof.
  intros Hlen.
  destruct argv as [|prog [|name rest]]; simpl in Hlen; try lia;
    unfold_script; repeat split; reflexivity.
Qed.

(** C3: a run with a project name performs the documented steps in
    their order, that is, its effects are a beginning of the script;
    an effect that fails is the last one of the run, which then does not
    return normally; a run that returns normally has performed the whole
    script; and when the template generation fails there is no change of
    directory and no other command (no repository, no environment). *)
Theorem run_init_fail_fast
    (prog name : string) (rest : list string) (w : world) (d : string) :
  let (r, p) := run_init (prog :: name :: rest) (start w d) in
  is_prefix (map action_of (trace p)) (script name (cwd p))
  /\ (forall pre e post,
        trace p = (pre ++ e :: post)%list -> failed e = true ->
        post = [] /\ r <> Ok tt)
  /\ (r = Ok tt -> map action_of (trace p) = script name (cwd p))
  /\ (forall dir status,
        In (Spawn dir (cookiecutter_cmd name) status) (trace p) ->
        status <> 0 ->
        chdirs_of (trace p) = []
        /\ commands_of (trace p) = [cookiecutter_cmd name]
        /\ cwd p = d).
Proof.
  unfold_script. ask_os.
  all: repeat match goal with |- _ /\ _ => split end.
  all: intros.
  all: lazymatch goal with
    | |- is_prefix _ _ => eexists; simpl; reflexivity
    | Ht : _ = (?pre ++ ?e :: ?post)%list, Hf : failed ?e = true |- _ =>
        split;
        [ refine (failed_is_last _ _ pre e post Ht Hf); reflexivity
        | try discriminate ]
    | H : _ = Ok tt |- _ => try discriminate H; reflexivity
    | Hin : _ \/ _ |- _ => in_trace Hin; repeat split; reflexivity
    end.
  (* the run that returns normally: nothing failed *)
  intros _.
  assert (Hall : forallb (fun e => negb (failed e))
                   (pre ++ e :: post)%list = true)
    by now rewrite <- H.
  rewrite (none_failed _ Hall e) in H0; [discriminate|].
  apply in_or_app. right. now left.
Qed.


(** C5: once the template generation has succeeded and the project
    directory can be entered, the script changes into the directory named
    by the project name and prints the path [os.getcwd()] then reports;
    this is the only change of directory of the run, and the process is
    still there when the run ends, however it ends.  No run changes
    directory more than once. *)
Theorem run_init_enters_project
    (prog name : string) (rest : list string) (w : world) (d : string) :
  let (r, p) := run_init (prog :: name :: rest) (start w d) in
  (length (chdirs_of (trace p)) <= 1)%nat
  /\ forall (w1 : world) (here : string),
       sh w d (cookiecutter_cmd name) = (0, w1) ->
       chdir w1 d name = Some here ->
       cwd p = here
       /\ chdirs_of (trace p) = [(name, Some here)]
       /\ is_prefix (entered d name here) (trace p).
Proof.
  unfold_script. ask_os.
  all: split; [simpl; lia|].
  all: intros w1' here' Hsh Hcd.
  all: inversion Hsh; subst; try contradiction.
  all: rewrite Ecd in Hcd; inversion Hcd; subst.
  all: repeat split; try reflexivity; eexists; simpl; reflexivity.
Qed.

(** C6: in the project directory the script hands the shell, once, the
    command whose simple commands are [git init -q], [git add .] and
    [git commit -m 'init project'] (the message one word), each run only
    if the one before succeeded; it holds the only commit of the step;
    when that command succeeds the next one, also in the project
    directory, is [git branch -M main], and when it fails nothing
    follows. *)
Theorem run_init_repository
    (prog name : string) (rest : list string) (w w1 : world)
    (d here : string) :
  sh w d (cookiecutter_cmd name) = (0, w1) ->
  chdir w1 d name = Some here ->
  let p := snd (run_init (prog :: name :: rest) (start w d)) in
  (exists status post,
      trace p = (entered d name here
                 ++ Stdout ("▶ " ++ git_init_cmd)
                 :: Spawn here git_init_cmd status :: post)%list
      /\ (status = 0 ->
          exists status' post',
            post = Stdout ("▶ " ++ git_branch_cmd)
                   :: Spawn here git_branch_cmd status' :: post')
      /\ (status <> 0 -> post = []))
  /\ occurrences git_init_cmd (commands_of (trace p)) = 1%nat
  /\ (occurrences git_branch_cmd (commands_of (trace p)) <= 1)%nat
  /\ Sh.tokens git_init_cmd
     = Some [ Sh.Word "git"; Sh.Word "init"; Sh.Word "-q"; Sh.AndIf;
              Sh.Word "git"; Sh.Word "add"; Sh.Word "."; Sh.AndIf;
              Sh.Word "git"; Sh.Word "commit"; Sh.Word "-m";
              Sh.Word "init project" ]
  /\ Sh.argvs git_branch_cmd = Some [["git"; "branch"; "-M"; "main"]]
  /\ length (filter is_commit (simple_commands [git_init_cmd; git_branch_cmd]))
     = 1%nat.
Proof.
  intros Hsh Hcd. unfold_script. ask_os.
  all: split;
    [ eexists; eexists; split; [simpl; reflexivity|]; split;
      [ intros E; try contradiction; try (eexists; eexists; reflexivity)
      | intros E; try contradiction; try reflexivity ]
    | unfold occurrences, cookiecutter_cmd; simpl;
      repeat split; try reflexivity; lia ].
Qed.

(** C7: once the branch is renamed the script prints the line announcing
    the environment, then hands the shell [python3 -m venv .venv] in the
    project directory (the target [.venv] is relative to it), and prints
    the completion line when that command has succeeded; when it has
    failed nothing follows. *)
Theorem run_init_environment
    (prog name : string) (rest : list string) (w w1 w2 w3 : world)
    (d here : string) :
  sh w d (cookiecutter_cmd name) = (0, w1) ->
  chdir w1 d name = Some here ->
  sh w1 here git_init_cmd = (0, w2) ->
  sh w2 here git_branch_cmd = (0, w3) ->
  let p := snd (run_init (prog :: name :: rest) (start w d)) in
  (exists status post,
      trace p = (initialized d name here
                 ++ Stdout "🐍 Creating virtual environment (.venv)..."
                 :: Stdout ("▶ " ++ venv_cmd)
                 :: Spawn here venv_cmd status :: post)%list
      /\ (status = 0 ->
          hd_error post = Some (Stdout "✅ Virtual environment created."))
      /\ (status <> 0 -> post = []))
  /\ cwd p = here
  /\ Sh.argvs venv_cmd = Some [["python3"; "-m"; "venv"; ".venv"]].
Proof.
  intros Hcc Hcd Hinit Hbranch. unfold_script. ask_os.
  all: split;
    [ eexists; eexists; split; [simpl; reflexivity|]; split;
      intros E; try contradiction; reflexivity
    | split; reflexivity ].
Qed.

(** C8, as the script has it: the usage error answers exactly the
    argument lists without a positional argument; with one or more the
    first is the project name and the others change nothing. *)
Theorem run_init_arity (argv : list string) (w : world) (d : string) :
  (fst (run_init argv (start w d)) = Raise (SystemExit 1)
   <-> (length argv < 2)%nat)
  /\ forall prog name rest,
       argv = prog :: name :: rest ->
       run_init argv (start w d) = run_init [prog; name] (start w d).
Proof.
  split.
  - destruct argv as [|prog [|name rest]].
    1, 2: split; [simpl; lia | reflexivity].
    split; [|simpl; lia].
    unfold_script. ask_os. all: discriminate.
  - intros prog name rest ->. reflexivity.
Qed.

(** C9: with the empty string as project name the script does not take
    the usage path: it hands the shell the template command with nothing
    between the quotes of both variables, which the shell reads as two
    empty values, and, that command having succeeded, its next effect is
    the attempt to change into the directory named by the empty string. *)
Theorem run_init_empty_name
    (prog : string) (rest : list string) (w : world) (d : string) :
  let (r, p) := run_init (prog :: EmptyString :: rest) (start w d) in
  r <> Raise (SystemExit 1)
  /\ ~ In (Stdout usage_msg) (trace p)
  /\ cookiecutter_cmd EmptyString
     = "cookiecutter gh:c3nk/cookiecutter-cli-standard-kit --no-input project_name='' project_slug=''"
  /\ Sh.argvs (cookiecutter_cmd EmptyString)
     = Some [[ "cookiecutter"; "gh:c3nk/cookiecutter-cli-standard-kit";
               "--no-input"; "project_name="; "project_slug=" ]]
  /\ exists status post,
       trace p = Stdout "🚀 Creating new CLI project: "
                 :: Stdout ("▶ " ++ cookiecutter_cmd EmptyString)
                 :: Spawn d (cookiecutter_cmd EmptyString) status :: post
       /\ (status = 0 -> exists res, hd_error post = Some (Chdir EmptyString res))
       /\ (status <> 0 -> post = []).
Proof.
  unfold_script. ask_os.
  all: split; [discriminate|].
  all: split; [intros Hin; in_trace Hin|].
  all: split; [reflexivity|].
  all: split; [reflexivity|].
  all: eexists; eexists; split; [reflexivity|]; split; intros E;
    try contradiction; try reflexivity; eexists; reflexivity.
Qed.

End Claims.


(** * Concrete runs *)

(** The end-to-end scenario of the specification: with [demo] as project
    name and every step succeeding, the process ends in the project
    directory after the whole script, the three later commands having run
    there. *)
Example demo_run :
  run_init ["cli-standard-kit"; "demo"] (start (os:=scripted) [] "/home/dev")
  = (Ok tt,
     mkProc (os:=scripted) "/home/dev/demo" []
          (initialized "/home/dev" "demo" "/home/dev/demo"
           ++ [ Stdout "🐍 Creating virtual environment (.venv)...";
                Stdout "▶ python3 -m venv .venv";
                Spawn "/home/dev/demo" "python3 -m venv .venv" 0;
                Stdout "✅ Virtual environment created.";
                Stdout (nl ++ "📦 Project ready!");
                Stdout "➡ cd demo && source .venv/bin/activate && python src/demo/cli.py --help" ])%list).
Proof. reflexivity. Qed.

(** A directory that cannot be entered ends the run with [OSError]. *)
Example barren_run :
  fst (run_init ["cli-standard-kit"; "demo"] (start (os:=barren) tt "/home/dev"))
  = Raise (OSError "demo").
Proof. reflexivity. Qed.


Lemma run_init_usage_witness :
  (length ["cli-standard-kit"] < 2)%nat
  /\ let (r, p) :=
       run_init ["cli-standard-kit"] (start (os:=scripted) [] "/home/dev") in
     r = Raise (SystemExit 1)
     /\ p = mkProc (os:=scripted) "/home/dev" [] [Stdout usage_msg]
     /\ commands_of (trace p) = []
     /\ chdirs_of (trace p) = []
     /\ exit_status r = 1.
Proof.
  split; [simpl; lia|].
  apply (run_init_usage (os:=scripted) ["cli-standard-kit"] [] "/home/dev").
  simpl; lia.
Defined.

Lemma run_init_fail_fast_witness :
  let p := snd (run_init ["cli-standard-kit"; "demo"]
                  (start (os:=scripted) [1] "/home/dev")) in
  chdirs_of (trace p) = []
  /\ commands_of (trace p) = [cookiecutter_cmd "demo"]
  /\ cwd p = "/home/dev".
Proof.
  pose proof (run_init_fail_fast (os:=scripted)
                "cli-standard-kit" "demo" [] [1] "/home/dev") as H.
  hnf in H. destruct H as (_ & _ & _ & H).
  apply (H "/home/dev" 1); [simpl; auto | discriminate].
Defined.


Lemma run_init_enters_project_witness :
  let p := snd (run_init ["cli-standard-kit"; "demo"]
                  (start (os:=scripted) [0; 128] "/home/dev")) in
  cwd p = "/home/dev/demo"
  /\ chdirs_of (trace p) = [("demo", Some "/home/dev/demo")]
  /\ is_prefix (entered "/home/dev" "demo" "/home/dev/demo") (trace p).
Proof.
  pose proof (run_init_enters_project (os:=scripted)
                "cli-standard-kit" "demo" [] [0; 128] "/home/dev") as H.
  hnf in H. destruct H as (_ & H).
  apply (H [128] "/home/dev/demo"); reflexivity.
Defined.

Lemma run_init_repository_witness :
  let p := snd (run_init ["cli-standard-kit"; "demo"]
                  (start (os:=scripted) [] "/home/dev")) in
  occurrences git_init_cmd (commands_of (trace p)) = 1%nat
  /\ (occurrences git_branch_cmd (commands_of (trace p)) <= 1)%nat.
Proof.
  pose proof (run_init_repository (os:=scripted)
                "cli-standard-kit" "demo" [] [] [] "/home/dev" "/home/dev/demo"
                eq_refl eq_refl) as H.
  destruct H as (_ & H1 & H2 & _). split; assumption.
Defined.

Lemma run_init_environment_witness :
  let p := snd (run_init ["cli-standard-kit"; "demo"]
                  (start (os:=scripted) [0; 0; 0; 1] "/home/dev")) in
  cwd p = "/home/dev/demo"
  /\ Sh.argvs venv_cmd = Some [["python3"; "-m"; "venv"; ".venv"]].
Proof.
  pose proof (run_init_environment (os:=scripted)
                "cli-standard-kit" "demo" [] [0; 0; 0; 1] [0; 0; 1] [0; 1] [1]
                "/home/dev" "/home/dev/demo"
                eq_refl eq_refl eq_refl eq_refl) as H.
  destruct H as (_ & H1 & H2). split; assumption.
Defined.

Lemma run_init_arity_witness :
  run_init ["cli-standard-kit"; "demo"; "extra"]
    (start (os:=scripted) [] "/home/dev")
  = run_init ["cli-standard-kit"; "demo"] (start (os:=scripted) [] "/home/dev").
Proof.
  apply (proj2 (run_init_arity (os:=scripted)
                  ["cli-standard-kit"; "demo"; "extra"] [] "/home/dev")
               "cli-standard-kit" "demo" ["extra"] eq_refl).
Defined.

Lemma run_init_empty_name_witness :
  let p := snd (run_init ["cli-standard-kit"; EmptyString]
                  (start (os:=barren) tt "/home/dev")) in
  exists status post,
    trace p = Stdout "🚀 Creating new CLI project: "
              :: Stdout ("▶ " ++ cookiecutter_cmd EmptyString)
              :: Spawn "/home/dev" (cookiecutter_cmd EmptyString) status
              :: post
    /\ (status = 0 -> exists res, hd_error post = Some (Chdir EmptyString res))
    /\ (status <> 0 -> post = []).
Proof.
  pose proof (run_init_empty_name (os:=barren)
                "cli-standard-kit" [] tt "/home/dev") as H.
  hnf in H. destruct H as (_ & _ & _ & _ & H). exact H.
Defined.

(** * Where the script departs from the specification *)



(** C8: a second positional argument is not answered with the usage
    error: the run goes through with the first one. *)
Lemma extra_argument_accepted :
  let r := fst (run_init ["cli-standard-kit"; "demo"; "extra"]
                  (start (os:=scripted) [] "/home/dev")) in
  r = Ok tt
  /\ ~ exactly_one_argument_enforced.
Proof.
  split; [reflexivity|].
  intros H.
  specialize (H scripted ["cli-standard-kit"; "demo"; "extra"] []
                "/home/dev").
  simpl in H. discriminate H. lia.
Qed.

(** * Further properties of the script *)

(** ** The shell's reading of the commands *)

Lemma append_assoc (a b c : string) : (a ++ b) ++ c = a ++ (b ++ c).
Proof. induction a as [|x a IH]; simpl; [reflexivity | now rewrite IH]. Qed.

Lemma plain_not_special (c : ascii) :
  Sh.is_plain c = true ->
  (c =? Sh.quote)%char = false /\ Sh.is_blank c = false
  /\ (c =? ";")%char = false /\ (c =? "&")%char = false.
Proof.
  destruct c as [[] [] [] [] [] [] [] []]; vm_compute; intros H;
    repeat split; (reflexivity || discriminate H).
Qed.

(** Outside quotes a stretch of plain characters extends the word under
    way. *)
Lemma lex_plain (n : string) :
  all_plain n = true ->
  forall (w rest : string),
    Sh.lex false (Some w) (n ++ rest) = Sh.lex false (Some (w ++ n)) rest.
Proof.
  induction n as [|c n IH]; intros Hp w rest.
  - simpl. now rewrite append_nil_r.
  - simpl in Hp. apply andb_true_iff in Hp as [Hc Hn].
    destruct (plain_not_special c Hc) as (Hq & Hb & Hs & Ha).
    cbn [Sh.lex append]. rewrite Hq, Hb, Hs, Ha, Hc.
    unfold Sh.push. cbn [Sh.word_of]. rewrite (IH Hn).
    now rewrite append_snoc.
Qed.

Lemma lex_plain_start (n : string) :
  all_plain n = true -> n <> EmptyString ->
  forall rest : string,
    Sh.lex false None (n ++ rest) = Sh.lex false (Some n) rest.
Proof.
  intros Hp Hne rest. destruct n as [|c n]; [contradiction|].
  simpl in Hp. apply andb_true_iff in Hp as [Hc Hn].
  destruct (plain_not_special c Hc) as (Hq & Hb & Hs & Ha).
  cbn [Sh.lex append]. rewrite Hq, Hb, Hs, Ha, Hc.
  unfold Sh.push. cbn [Sh.word_of append].
  now rewrite (lex_plain n Hn).
Qed.

(** X7: for a project name that is not empty and is made of plain
    characters, the hint printed last is the arrow followed by a command
    line that the shell reads as three commands joined by [&&]: [cd] into
    the name, [source .venv/bin/activate], and [python] on the [cli.py] of
    the package of that name with [--help]. *)
Theorem hint_is_a_command_line (name : string) :
  all_plain name = true -> name <> EmptyString ->
  hint_msg name = "➡ " ++ hint_cmd name
  /\ Sh.tokens (hint_cmd name)
     = Some [ Sh.Word "cd"; Sh.Word name; Sh.AndIf;
              Sh.Word "source"; Sh.Word ".venv/bin/activate"; Sh.AndIf;
              Sh.Word "python"; Sh.Word ("src/" ++ name ++ "/cli.py");
              Sh.Word "--help" ]
  /\ Sh.argvs (hint_cmd name)
     = Some [ ["cd"; name]; ["source"; ".venv/bin/activate"];
              ["python"; "src/" ++ name ++ "/cli.py"; "--help"] ].
Proof.
  intros Hp Hne.
  assert (Htok : Sh.tokens (hint_cmd name)
     = Some [ Sh.Word "cd"; Sh.Word name; Sh.AndIf;
              Sh.Word "source"; Sh.Word ".venv/bin/activate"; Sh.AndIf;
              Sh.Word "python"; Sh.Word ("src/" ++ name ++ "/cli.py");
              Sh.Word "--help" ]).
  { unfold Sh.tokens, hint_cmd. simpl.
    rewrite (lex_plain_start name Hp Hne). simpl.
    unfold Sh.push. rewrite (lex_plain name Hp). simpl.
    rewrite !append_assoc. reflexivity. }
  split; [reflexivity|]. split; [exact Htok|].
  unfold Sh.argvs. rewrite Htok. reflexivity.
Qed.

Lemma hint_is_a_command_line_witness :
  Sh.argvs (hint_cmd "demo")
  = Some [ ["cd"; "demo"]; ["source"; ".venv/bin/activate"];
           ["python"; "src/demo/cli.py"; "--help"] ].
Proof.
  apply (hint_is_a_command_line "demo"); [reflexivity | discriminate].
Defined.

Lemma commands_words (ts : list Sh.token) (w : string) :
  In w (concat (Sh.commands ts)) -> In (Sh.Word w) ts.
Proof.
  induction ts as [|t ts IH]; simpl; [tauto|].
  destruct t as [v| |]; simpl.
  - destruct (Sh.commands ts) as [|c cs]; simpl in *.
    + intros [E|[]]. left. now rewrite E.
    + intros [E|H]; [left; now rewrite E | right; now apply IH].
  - intros H. right. now apply IH.
  - intros H. right. now apply IH.
Qed.

(** X5: the shell starts the template engine with exactly the five
    intended arguments, the project name being the value of both
    variables, if and only if the name holds no single quote; blanks,
    semicolons, dollar signs and the like in the name do no harm. *)
Theorem template_arguments_iff (name : string) :
  Sh.argvs (cookiecutter_cmd name) = Some [cookiecutter_argv name]
  <-> Sh.has_quote name = false.
Proof.
  split.
  - intros H. destruct (Sh.has_quote name) eqn:Hq; [|reflexivity].
    exfalso. unfold Sh.argvs in H.
    destruct (Sh.tokens (cookiecutter_cmd name)) as [ts|] eqn:Hts;
      [|discriminate].
    simpl in H. inversion H as [Hc].
    apply (quoted_name_not_passed name "project_name=" ts Hq Hts).
    apply commands_words. rewrite Hc. simpl. auto.
  - intros Hq. unfold Sh.argvs.
    rewrite (cookiecutter_tokens name Hq). reflexivity.
Qed.

Lemma template_arguments_iff_witness :
  Sh.has_quote "my project; $HOME" = false
  /\ Sh.argvs (cookiecutter_cmd "my project; $HOME")
     = Some [cookiecutter_argv "my project; $HOME"].
Proof.
  split; [reflexivity|].
  apply (proj2 (template_arguments_iff "my project; $HOME")). reflexivity.
Defined.

(** ** The helper [run] and the outcomes of [run_init] *)

Lemma echoed_before (t : list event) :
  forall prev, echoed prev t ->
  forall pre dir cmd status post,
    t = (pre ++ Spawn dir cmd status :: post)%list ->
    (pre = [] /\ prev = Some (Stdout ("▶ " ++ cmd)))
    \/ exists pre', pre = (pre' ++ [Stdout ("▶ " ++ cmd)])%list.
Proof.
  induction t as [|e t IH]; intros prev He pre dir cmd status post Ht.
  - destruct pre; discriminate.
  - destruct He as [Hhd Htl]. destruct pre as [|x pre].
    + inversion Ht; subst. left. split; [reflexivity | exact Hhd].
    + inversion Ht; subst. right.
      destruct (IH _ Htl pre dir cmd status post eq_refl)
        as [[Hnil Hprev] | [pre' Hpre]].
      * subst pre. inversion Hprev; subst. exists []. reflexivity.
      * subst pre. exists (x :: pre'). reflexivity.
Qed.

Section Further.
Context {os : OS}.

(** X1: [run_init] never raises [IndexError], whatever the argument
    list (the empty one included) and whatever the commands do: the guard
    keeps [sys.argv[1]] in range.  And a [CalledProcessError] that leaves
    it carries a status other than zero and the text of the command that
    the run spawned last, with that status. *)
Theorem run_init_exceptions (argv : list string) (w : world) (d : string) :
  let (r, p) := run_init argv (start w d) in
  r <> Raise IndexError
  /\ forall status cmd,
       r = Raise (CalledProcessError status cmd) ->
       status <> 0
       /\ exists dir,
            last (trace p) (Stdout EmptyString) = Spawn dir cmd status.
Proof.
  destruct argv as [|prog [|name rest]].
  1, 2: unfold_script; split; [discriminate | intros status cmd H; discriminate H].
  unfold_script. ask_os.
  all: split; [discriminate|].
  all: intros status cmd H; try discriminate H.
  all: inversion H; subst.
  all: split; [assumption | eexists; reflexivity].
Qed.

(** X3: when the template command has succeeded but the directory named
    by the project name cannot be entered, the run ends there with
    [OSError]: the process is still in the directory it started in, the
    world is the one the template command left (nothing is cleaned up), no
    repository or environment command has run, and the process ends with
    status 1 and a traceback. *)
Theorem run_init_directory_missing
    (prog name : string) (rest : list string) (w w1 : world) (d : string) :
  sh w d (cookiecutter_cmd name) = (0, w1) ->
  chdir w1 d name = None ->
  run_init (prog :: name :: rest) (start w d)
  = (Raise (OSError name),
     {| cwd := d; env := w1;
        trace := [ Stdout ("🚀 Creating new CLI project: " ++ name);
                   Stdout ("▶ " ++ cookiecutter_cmd name);
                   Spawn d (cookiecutter_cmd name) 0;
                   Chdir name None ] |})
  /\ exit_status (fst (run_init (prog :: name :: rest) (start w d))) = 1
  /\ traceback (fst (run_init (prog :: name :: rest) (start w d))) = true.
Proof.
  intros Hsh Hcd. unfold_script. ask_os. repeat split.
Qed.

(** X4: in every run, every command handed to the shell comes right
    after the line that echoes it on standard output. *)
Theorem run_init_echoes_commands
    (argv : list string) (w : world) (d : string) :
  let p := snd (run_init argv (start w d)) in
  forall pre dir cmd status post,
    trace p = (pre ++ Spawn dir cmd status :: post)%list ->
    exists pre', pre = (pre' ++ [Stdout ("▶ " ++ cmd)])%list.
Proof.
  assert (He : echoed None (trace (snd (run_init argv (start w d))))).
  { destruct argv as [|prog [|name rest]].
    1, 2: unfold_script; repeat split.
    unfold_script. ask_os. all: repeat split. }
  intros p pre dir cmd status post Ht.
  destruct (echoed_before _ None He pre dir cmd status post Ht)
    as [[_ Hprev] | Hpre]; [discriminate | exact Hpre].
Qed.

(** X9: when all four commands succeed and the project directory can be
    entered, [run_init] returns normally; the process is in the project
    directory, the world is the one obtained by running the four commands
    one after the other, each on the world the one before left (the
    directory is looked up in the world the template command left), and
    the trace is the whole script. *)
Theorem run_init_success
    (prog name : string) (rest : list string) (w w1 w2 w3 w4 : world)
    (d here : string) :
  sh w d (cookiecutter_cmd name) = (0, w1) ->
  chdir w1 d name = Some here ->
  sh w1 here git_init_cmd = (0, w2) ->
  sh w2 here git_branch_cmd = (0, w3) ->
  sh w3 here venv_cmd = (0, w4) ->
  run_init (prog :: name :: rest) (start w d)
  = (Ok tt,
     {| cwd := here; env := w4;
        trace := (initialized d name here ++ finished name here)%list |}).
Proof.
  intros H1 H2 H3 H4 H5. unfold_script. ask_os. reflexivity.
Qed.

(** X10: the line announcing that the project is ready is printed exactly
    when [run_init] returns normally, and then the last line printed is
    the hint for the project name [sys.argv[1]]. *)
Theorem run_init_ready_iff_success
    (argv : list string) (w : world) (d : string) :
  let (r, p) := run_init argv (start w d) in
  (In (Stdout (nl ++ "📦 Project ready!")) (trace p) <-> r = Ok tt)
  /\ (r = Ok tt ->
      exists name, nth_error argv 1 = Some name
                   /\ last (trace p) (Stdout EmptyString)
                      = Stdout (hint_msg name)).
Proof.
  destruct argv as [|prog [|name rest]].
  1, 2: unfold_script; split; [split|]; intros H; try discriminate H;
    cbv in H; destruct H as [H|[]]; discriminate H.
  unfold_script. ask_os.
  all: split;
    [ split; intros H;
      first [ reflexivity
            | discriminate H
            | exfalso; cbv in H;
              repeat (destruct H as [H|H]; [discriminate H|]); exact H
            | simpl; auto 20 ]
    | intros H; first [discriminate H | exists name; split; reflexivity] ].
Qed.

End Further.

(** ** Concrete runs of the further properties *)

Lemma run_init_exceptions_witness :
  let r := fst (run_init ["cli-standard-kit"; "demo"]
                  (start (os:=scripted) [0; 0; 3] "/home/dev")) in
  r = Raise (CalledProcessError 3 git_branch_cmd)
  /\ exists dir,
       last (trace (snd (run_init ["cli-standard-kit"; "demo"]
                           (start (os:=scripted) [0; 0; 3] "/home/dev"))))
            (Stdout EmptyString)
       = Spawn dir git_branch_cmd 3.
Proof.
  pose proof (run_init_exceptions (os:=scripted)
                ["cli-standard-kit"; "demo"] [0; 0; 3] "/home/dev") as H.
  hnf in H. destruct H as (_ & H).
  split; [reflexivity|]. apply (H 3 git_branch_cmd eq_refl).
Defined.

Lemma run_init_directory_missing_witness :
  fst (run_init ["cli-standard-kit"; "demo"] (start (os:=barren) tt "/home/dev"))
  = Raise (OSError "demo")
  /\ cwd (snd (run_init ["cli-standard-kit"; "demo"]
                 (start (os:=barren) tt "/home/dev"))) = "/home/dev".
Proof.
  destruct (run_init_directory_missing (os:=barren)
              "cli-standard-kit" "demo" [] tt tt "/home/dev" eq_refl eq_refl)
    as (H & _ & _).
  rewrite H. split; reflexivity.
Defined.

Lemma run_init_echoes_commands_witness :
  exists pre',
    [ Stdout "🚀 Creating new CLI project: demo";
      Stdout ("▶ " ++ cookiecutter_cmd "demo") ]
    = (pre' ++ [Stdout ("▶ " ++ cookiecutter_cmd "demo")])%list.
Proof.
  apply (run_init_echoes_commands (os:=scripted)
           ["cli-standard-kit"; "demo"] [7] "/home/dev"
           _ "/home/dev" (cookiecutter_cmd "demo") 7 []).
  reflexivity.
Defined.

Lemma run_init_success_witness :
  run_init ["cli-standard-kit"; "demo"] (start (os:=scripted) [0] "/home/dev")
  = (Ok tt,
     mkProc (os:=scripted) "/home/dev/demo" []
       (initialized "/home/dev" "demo" "/home/dev/demo"
        ++ finished "demo" "/home/dev/demo")%list).
Proof.
  apply (run_init_success (os:=scripted) "cli-standard-kit" "demo" []
           [0] [] [] [] [] "/home/dev" "/home/dev/demo");
    reflexivity.
Defined.

Lemma run_init_ready_iff_success_witness :
  exists name,
    nth_error ["cli-standard-kit"; "demo"] 1 = Some name
    /\ last (trace (snd (run_init ["cli-standard-kit"; "demo"]
                           (start (os:=scripted) [] "/home/dev"))))
            (Stdout EmptyString)
       = Stdout (hint_msg name).
Proof.
  pose proof (run_init_ready_iff_success (os:=scripted)
                ["cli-standard-kit"; "demo"] [] "/home/dev") as H.
  hnf in H. destruct H as (_ & H). apply H. reflexivity.
Defined.

(** ** Where the commands run, and what a failed template leaves *)

Lemma well_placed_split (name : string) (t : list event) :
  forall (cur : string) (entered : bool),
    well_placed name cur entered t ->
    forall pre dir cmd status post,
      t = (pre ++ Spawn dir cmd status :: post)%list ->
      if entered
      then chdirs_of pre = [] /\ dir = cur
           /\ In cmd [git_init_cmd; git_branch_cmd; venv_cmd]
      else (chdirs_of pre = [] /\ dir = cur /\ cmd = cookiecutter_cmd name)
           \/ (chdirs_of pre = [(name, Some dir)]
               /\ In cmd [git_init_cmd; git_branch_cmd; venv_cmd]).
Proof.
  induction t as [|e t IH]; intros cur entered Hw pre dir cmd status post Ht.
  - destruct pre; discriminate.
  - destruct pre as [|x pre]; inversion Ht; subst; clear Ht.
    + destruct Hw as (Hd & Hc & _). subst dir.
      destruct entered; [now repeat split | left; now repeat split].
    + destruct x as [line | dir0 cmd0 st0 | path res].
      * apply (IH cur entered Hw pre dir cmd status post eq_refl).
      * destruct Hw as (_ & _ & Hw).
        apply (IH cur entered Hw pre dir cmd status post eq_refl).
      * destruct Hw as (Hp & He & Hw). subst path entered.
        destruct res as [dir'|].
        -- destruct (IH dir' true Hw pre dir cmd status post eq_refl)
             as (Hc & Hd & Hin).
           right. simpl. rewrite Hc. subst dir'. now split.
        -- destruct pre; discriminate.
Qed.

Section Directories.
Context {os : OS}.

(** X11: in every run, a command started before the change of
    directory is the template command and runs in the directory the process
    started in; a command started after it is one of the three fixed
    commands and runs in the directory that the one successful [os.chdir]
    of the project name, earlier in the trace, reported.  So no repository
    or environment command runs before the process has entered the
    project directory. *)
Theorem run_init_command_directories
    (prog name : string) (rest : list string) (w : world) (d : string) :
  let p := snd (run_init (prog :: name :: rest) (start w d)) in
  forall pre dir cmd status post,
    trace p = (pre ++ Spawn dir cmd status :: post)%list ->
    (chdirs_of pre = [] /\ dir = d /\ cmd = cookiecutter_cmd name)
    \/ (chdirs_of pre = [(name, Some dir)]
        /\ In cmd [git_init_cmd; git_branch_cmd; venv_cmd]).
Proof.
  assert (Hw : well_placed name d false
                 (trace (snd (run_init (prog :: name :: rest) (start w d))))).
  { unfold_script. ask_os. all: repeat split; simpl; auto 10. }
  intros p pre dir cmd status post Ht.
  apply (well_placed_split name _ d false Hw pre dir cmd status post Ht).
Qed.

(** X12: when the template command exits with a status other than zero,
    the run ends there with [CalledProcessError] carrying that status and
    the command; the process is where it started, the world is whatever
    the failed command left behind (nothing is cleaned up), and the only
    lines printed are the announcement and the echo of the command. *)
Theorem run_init_template_failure
    (prog name : string) (rest : list string) (w w1 : world) (d : string)
    (status : Z) :
  sh w d (cookiecutter_cmd name) = (status, w1) ->
  status <> 0 ->
  run_init (prog :: name :: rest) (start w d)
  = (Raise (CalledProcessError status (cookiecutter_cmd name)),
     {| cwd := d; env := w1;
        trace := [ Stdout ("🚀 Creating new CLI project: " ++ name);
                   Stdout ("▶ " ++ cookiecutter_cmd name);
                   Spawn d (cookiecutter_cmd name) status ] |}).
Proof.
  intros Hsh Hst. unfold_script. rewrite Hsh. simpl.
  apply Z.eqb_neq in Hst. rewrite Hst. reflexivity.
Qed.

End Directories.

Lemma run_init_command_directories_witness :
  chdirs_of (entered "/home/dev" "demo" "/home/dev/demo"
             ++ [Stdout ("▶ " ++ git_init_cmd)])%list
  = [("demo", Some "/home/dev/demo")]
  /\ In git_init_cmd [git_init_cmd; git_branch_cmd; venv_cmd].
Proof.
  destruct (run_init_command_directories (os:=scripted)
              "cli-standard-kit" "demo" [] [0; 5] "/home/dev"
              (entered "/home/dev" "demo" "/home/dev/demo"
               ++ [Stdout ("▶ " ++ git_init_cmd)])%list
              "/home/dev/demo" git_init_cmd 5 [] eq_refl)
    as [(E & _) | H].
  - discriminate E.
  - exact H.
Defined.

Lemma run_init_template_failure_witness :
  run_init ["cli-standard-kit"; "demo"] (start (os:=scripted) [2; 0] "/home/dev")
  = (Raise (CalledProcessError 2 (cookiecutter_cmd "demo")),
     mkProc (os:=scripted) "/home/dev" [0]
       [ Stdout "🚀 Creating new CLI project: demo";
         Stdout ("▶ " ++ cookiecutter_cmd "demo");
         Spawn "/home/dev" (cookiecutter_cmd "demo") 2 ]).
Proof.
  apply (run_init_template_failure (os:=scripted) "cli-standard-kit" "demo" []
           [2; 0] [0] "/home/dev" 2); [reflexivity | discriminate].
Defined.
